(** * make_bea_regions.py: region aggregation of US state polygons

    A shallow embedding of [build_bea_regions] from make_bea_regions.py.
    A GeoDataFrame is a record of column names, rows and an optional CRS
    (an EPSG code).  A row holds its attribute cells (an association list
    column -> value) and its geometry.  A geometry is modelled as the finite
    set of cells (integer coordinate pairs) it covers, listed without
    duplicates; the shapely union is the set union of such footprints, and
    a reprojection is a point transform [proj src tgt] applied to every
    coordinate.  Pandas values are strings or NaN. *)

From stdpp Require Import base list gmap strings pretty.
From Stdlib Require Import String ZArith Sorting.Permutation Sorting.Sorted.
Open Scope string_scope.
Open Scope list_scope.

(** ** Data model *)

Inductive value : Type :=
| VStr (s : string)
| VNaN.

#[global] Instance value_eq_dec : EqDecision value.
Proof. solve_decision. Defined.

Definition point : Type := (Z * Z)%type.
Definition geometry : Type := list point.

Record row : Type := mk_row {
  cells : list (string * value);
  geom : geometry
}.

Record frame : Type := mk_frame {
  cols : list string;       (* column names, "geometry" included *)
  rows : list row;
  crs : option Z            (* None: a naive frame, no CRS declared *)
}.

(** Python exceptions: class name and the values carried by the message. *)
Record exc : Type := mk_exc {
  exc_class : string;
  exc_payload : list value
}.

Definition key_error_stusps : exc := mk_exc "KeyError" [].
Definition missing_mapping_error (bad : list value) : exc := mk_exc "ValueError" bad.
Definition naive_crs_error : exc := mk_exc "ValueError" [].
Definition column_key_error : exc := mk_exc "KeyError" [].

(** ** Module constants *)

Definition BEA_MAP : list (string * string) := [
  ("CT","New England"); ("ME","New England"); ("MA","New England"); ("NH","New England"); ("RI","New England"); ("VT","New England");
  ("DE","Mideast"); ("DC","Mideast"); ("MD","Mideast"); ("NJ","Mideast"); ("NY","Mideast"); ("PA","Mideast");
  ("IL","Great Lakes"); ("IN","Great Lakes"); ("MI","Great Lakes"); ("OH","Great Lakes"); ("WI","Great Lakes");
  ("IA","Plains"); ("KS","Plains"); ("MN","Plains"); ("MO","Plains"); ("NE","Plains"); ("ND","Plains"); ("SD","Plains");
  ("AL","Southeast"); ("AR","Southeast"); ("FL","Southeast"); ("GA","Southeast"); ("KY","Southeast"); ("LA","Southeast");
  ("MS","Southeast"); ("NC","Southeast"); ("SC","Southeast"); ("TN","Southeast"); ("VA","Southeast"); ("WV","Southeast");
  ("AZ","Southwest"); ("NM","Southwest"); ("OK","Southwest"); ("TX","Southwest");
  ("CO","Rocky Mountain"); ("ID","Rocky Mountain"); ("MT","Rocky Mountain"); ("UT","Rocky Mountain"); ("WY","Rocky Mountain");
  ("AK","Far West"); ("CA","Far West"); ("HI","Far West"); ("NV","Far West"); ("OR","Far West"); ("WA","Far West")
].

Definition TERRITORIES : list string := ["PR"; "GU"; "VI"; "MP"; "AS"].

(** ** Helpers on cells, columns and dictionaries *)

Definition mem_str (x : string) (l : list string) : bool :=
  existsb (fun y => bool_decide (x = y)) l.

Fixpoint assoc {A} (k : string) (l : list (string * A)) : option A :=
  match l with
  | [] => None
  | (k', v) :: l' => if bool_decide (k = k') then Some v else assoc k l'
  end.

(** [row[c]]: a missing cell reads as NaN. *)
Definition get_cell (r : row) (c : string) : value :=
  match assoc c (cells r) with Some v => v | None => VNaN end.

Fixpoint set_cell_list (c : string) (v : value) (l : list (string * value))
  : list (string * value) :=
  match l with
  | [] => [(c, v)]
  | (k, w) :: l' => if bool_decide (c = k) then (k, v) :: l' else (k, w) :: set_cell_list c v l'
  end.

Definition set_cell (c : string) (v : value) (r : row) : row :=
  mk_row (set_cell_list c v (cells r)) (geom r).

Definition isna (v : value) : bool :=
  match v with VNaN => true | VStr _ => false end.

(** [Series.isin(values)]: NaN is in no set of strings. *)
Definition isin (v : value) (s : list string) : bool :=
  match v with VStr x => mem_str x s | VNaN => false end.

(** [Series.map(dict)]: a key absent from the dict (or NaN) gives NaN. *)
Definition map_value (m : list (string * string)) (v : value) : value :=
  match v with
  | VStr x => match assoc x m with Some l => VStr l | None => VNaN end
  | VNaN => VNaN
  end.

(** [df[mask]]: keep the rows where the mask holds. *)
Definition filter_rows (p : row -> bool) (df : frame) : frame :=
  mk_frame (cols df) (filter (fun r => p r = true) (rows df)) (crs df).

(** [df[c] = f(df)]: assign a column, appended when it is new. *)
Definition set_column (c : string) (f : row -> value) (df : frame) : frame :=
  mk_frame (if mem_str c (cols df) then cols df else cols df ++ [c])
           (map (fun r => set_cell c (f r) r) (rows df)) (crs df).

(** ** Geometry *)

Definition mem_pt (p : point) (g : geometry) : bool :=
  existsb (fun q => bool_decide (p = q)) g.

(** Union of two footprints. *)
Definition geom_union (g1 g2 : geometry) : geometry :=
  g1 ++ filter (fun p => mem_pt p g1 = false) g2.

(** [unary_union] of a group's geometries. *)
Definition union_all (gs : list geometry) : geometry :=
  fold_left geom_union gs [].

(** ** dissolve(by=c, as_index=False, aggfunc='first')

    The model's frames have their geometry column named "geometry", the
    name [gpd.read_file] gives it; geopandas' [dissolve] keeps whatever
    name the input's geometry column has, so on a frame whose geometry
    column is named otherwise line 65 raises KeyError.  That case is out
    of the model: statements about arbitrary input frames that would
    depend on it are stated for the runs that succeed. *)

Fixpoint insert_str (x : string) (l : list string) : list string :=
  match l with
  | [] => [x]
  | y :: l' => if String.leb x y then x :: y :: l' else y :: insert_str x l'
  end.

Fixpoint sort_str (l : list string) : list string :=
  match l with
  | [] => []
  | x :: l' => insert_str x (sort_str l')
  end.

Fixpoint dedup_str (l : list string) : list string :=
  match l with
  | [] => []
  | x :: l' => if mem_str x l' then dedup_str l' else x :: dedup_str l'
  end.

(** The string keys of column [c] (groupby drops NaN keys). *)
Definition key_strings (c : string) (rs : list row) : list string :=
  flat_map (fun r => match get_cell r c with VStr s => [s] | VNaN => [] end) rs.

(** groupby(sort=True): distinct keys in sorted order. *)
Definition group_keys (c : string) (rs : list row) : list string :=
  sort_str (dedup_str (key_strings c rs)).

Definition members (c : string) (k : string) (rs : list row) : list row :=
  filter (fun r => get_cell r c = VStr k) rs.

(** aggfunc 'first': the first non-NaN value of the column in the group. *)
Fixpoint first_valid (c : string) (rs : list row) : value :=
  match rs with
  | [] => VNaN
  | r :: rs' => match get_cell r c with VStr s => VStr s | VNaN => first_valid c rs' end
  end.

Definition dissolve_row (c : string) (others : list string) (rs : list row) (k : string) : row :=
  let ms := members c k rs in
  mk_row ((c, VStr k) :: map (fun a => (a, first_valid a ms)) others)
         (union_all (map geom ms)).

Definition dissolve (c : string) (df : frame) : frame :=
  let others := filter (fun a => mem_str a [c; "geometry"] = false) (cols df) in
  mk_frame (c :: "geometry" :: others)
           (map (dissolve_row c others (rows df)) (group_keys c (rows df)))
           (crs df).

(** ** to_crs and column selection *)

Section Pipeline.

(** [proj src tgt p]: the coordinate transform from EPSG [src] to EPSG
    [tgt], a total map on the cells of a footprint.  pyproj's failure to
    build a transformer, and geopandas' transforming only the vertices of
    a polygon, are not modelled. *)
Variable proj : Z -> Z -> point -> point.

Definition to_crs (tgt : Z) (df : frame) : exc + frame :=
  match crs df with
  | None => inl naive_crs_error
  | Some src =>
      inr (mk_frame (cols df)
                    (map (fun r => mk_row (cells r) (map (proj src tgt) (geom r))) (rows df))
                    (Some tgt))
  end.

(** [df[[c1, ..., cn]]]. *)
Definition select_cols (cs : list string) (df : frame) : exc + frame :=
  if forallb (fun c => mem_str c (cols df)) cs then
    inr (mk_frame cs
                  (map (fun r => mk_row (filter (fun kv => mem_str kv.1 cs) (cells r)) (geom r))
                       (rows df))
                  (crs df))
  else inl column_key_error.

(** ** build_bea_regions *)

Definition not_territory (r : row) : bool :=
  negb (isin (get_cell r "STUSPS") TERRITORIES).

Definition assign_region (r : row) : value :=
  map_value BEA_MAP (get_cell r "STUSPS").

Definition missing_rows (df : frame) : list row :=
  filter (fun r => isna (get_cell r "bea_region") = true) (rows df).

(** The classified frame: territories dropped, [bea_region] assigned. *)
Definition classify (states : frame) : frame :=
  set_column "bea_region" assign_region (filter_rows not_territory states).

Definition build_bea_regions (states : frame) : exc + frame :=
  if negb (mem_str "STUSPS" (cols states)) then inl key_error_stusps else
  let states := classify states in
  let missing := List.length (missing_rows states) in
  if bool_decide (missing <> 0) then
    let bad := map (fun r => get_cell r "STUSPS") (missing_rows states) in
    inl (missing_mapping_error bad)
  else
    let bea := dissolve "bea_region" states in
    match to_crs 4326 bea with
    | inl e => inl e
    | inr bea => select_cols ["bea_region"; "geometry"] bea
    end.

(** ** The same run over a heap of Python objects

    Every pandas call that returns a new frame allocates it at a fresh
    location; the column assignment [states['bea_region'] = ...] updates
    the frame at its location in place.  [build_bea_regions_heap h loc]
    runs on the frame stored at [loc] and returns the final heap with the
    exception or the location of the result. *)

Definition alloc (h : gmap nat frame) (f : frame) : gmap nat frame * nat :=
  let l := fresh (dom h) in (<[l := f]> h, l).

Definition build_bea_regions_heap (h : gmap nat frame) (loc : nat)
  : option (gmap nat frame * (exc + nat)) :=
  states ← h !! loc;
  if negb (mem_str "STUSPS" (cols states)) then Some (h, inl key_error_stusps) else
  (* states = states[~states['STUSPS'].isin(TERRITORIES)] *)
  let '(h1, l1) := alloc h (filter_rows not_territory states) in
  (* .copy() *)
  f1 ← h1 !! l1;
  let '(h2, l2) := alloc h1 f1 in
  (* states['bea_region'] = states['STUSPS'].map(BEA_MAP), in place *)
  f2 ← h2 !! l2;
  let h3 := <[l2 := set_column "bea_region" assign_region f2]> h2 in
  f3 ← h3 !! l2;
  let missing := List.length (missing_rows f3) in
  if bool_decide (missing <> 0) then
    Some (h3, inl (missing_mapping_error (map (fun r => get_cell r "STUSPS") (missing_rows f3))))
  else
  let '(h4, l4) := alloc h3 (dissolve "bea_region" f3) in
  f4 ← h4 !! l4;
  match to_crs 4326 f4 with
  | inl e => Some (h4, inl e)
  | inr f5 =>
      let '(h5, l5) := alloc h4 f5 in
      f5' ← h5 !! l5;
      match select_cols ["bea_region"; "geometry"] f5' with
      | inl e => Some (h5, inl e)
      | inr f6 => let '(h6, l6) := alloc h5 f6 in Some (h6, inr l6)
      end
  end.

(** The row the pipeline emits for label [k] when the frame's CRS is [src]. *)
Definition region_row (src : Z) (rs : list row) (k : string) : row :=
  mk_row [("bea_region", VStr k)]
         (map (proj src 4326) (union_all (map geom (members "bea_region" k rs)))).

End Pipeline.

(** ** download_states and main

    The services these functions call are parameters: [fetch url] is
    [requests.get(url, timeout=60)] (an exception, or a response);
    [read_file names member] is [gpd.read_file] on the member [member]
    extracted from a zip archive whose entries are [names];
    [write_geojson path bea] is [bea.to_file(path, driver="GeoJSON")]
    (None when it succeeds); [usage_error scale] are the lines argparse
    prints to stderr when it rejects the value [scale] of --scale. *)

Record response : Type := mk_response {
  status_code : Z;
  zip_names : option (list string)   (* the namelist; None: not a zip file *)
}.

(** What the program changes outside itself. *)
Record world : Type := mk_world {
  stderr_lines : list string;
  requested : list string;           (* URLs fetched, in order *)
  files : gmap string frame          (* GeoJSON files written by to_file *)
}.

Definition http_error : exc := mk_exc "HTTPError" [].
Definition bad_zip_error : exc := mk_exc "BadZipFile" [].
Definition stop_iteration : exc := mk_exc "StopIteration" [].
Definition system_exit_2 : exc := mk_exc "SystemExit" [VStr "2"].

(** [str.endswith(suffix)]. *)
Definition endswith (s suffix : string) : bool :=
  let n := String.length s in
  let m := String.length suffix in
  Nat.leb m n && String.eqb (String.substring (n - m) m s) suffix.

(** [Response.raise_for_status()]: HTTPError for a 4xx or 5xx status. *)
Definition raise_for_status (resp : response) : option exc :=
  if (400 <=? status_code resp)%Z && (status_code resp <? 600)%Z then Some http_error else None.

Definition census_zip_url (year : Z) (scale : string) : string :=
  let base := "https://www2.census.gov/geo/tiger/GENZ" +:+ pretty year +:+ "/shp" in
  base +:+ "/cb_" +:+ pretty year +:+ "_us_state_" +:+ scale +:+ ".zip".

(** [print(line, file=sys.stderr)]. *)
Definition log (w : world) (line : string) : world :=
  mk_world (stderr_lines w ++ [line]) (requested w) (files w).

Definition scale_choices : list string := ["5m"; "20m"].

Section Program.

Variable proj : Z -> Z -> point -> point.
Variable fetch : string -> exc + response.
Variable read_file : list string -> string -> exc + frame.
Variable write_geojson : string -> frame -> option exc.
Variable usage_error : string -> list string.

(** The archive members are extracted into a [tempfile.TemporaryDirectory]
    (lines 45-46) and read from there by [read_file]; that directory is
    not tracked by [world]. *)
Definition download_states (year : Z) (scale : string) (w : world) : world * (exc + frame) :=
  let zip_url := census_zip_url year scale in
  let w := log w ("Downloading " +:+ zip_url +:+ " ...") in
  let w := mk_world (stderr_lines w) (requested w ++ [zip_url]) (files w) in
  match fetch zip_url with
  | inl e => (w, inl e)
  | inr resp =>
      match raise_for_status resp with
      | Some e => (w, inl e)
      | None =>
          match zip_names resp with
          | None => (w, inl bad_zip_error)
          | Some names =>
              (* next(n for n in zf.namelist() if n.endswith(".shp")) *)
              match find (fun n => endswith n ".shp") names with
              | None => (w, inl stop_iteration)
              | Some shp_name => (w, read_file names shp_name)
              end
          end
      end
  end.

(** [main()] on the values given for --output, --year and --scale
    (defaults "bea_regions_wgs84.geojson", 2022 and "20m"); the choices
    check of --scale is argparse's, made before the body runs. *)
Definition main (output : string) (year : Z) (scale : string) (w : world) : world * (exc + unit) :=
  if negb (mem_str scale scale_choices) then
    (mk_world (stderr_lines w ++ usage_error scale) (requested w) (files w), inl system_exit_2)
  else
  let '(w, r) := download_states year scale w in
  match r with
  | inl e => (w, inl e)
  | inr states =>
      match build_bea_regions proj states with
      | inl e => (w, inl e)
      | inr bea =>
          match write_geojson output bea with
          | Some e => (w, inl e)
          | None =>
              let w := mk_world (stderr_lines w) (requested w) (<[output := bea]> (files w)) in
              (log w ("Wrote " +:+ output +:+ " with " +:+ pretty (List.length (rows bea)) +:+ " features."),
               inr tt)
          end
      end
  end.

End Program.

(** ** Sample inputs *)

(** A stand-in transform from EPSG [src] to EPSG [tgt]: a shift of one
    unit along the first axis when the two systems differ. *)
Definition shift_proj (src tgt : Z) (p : point) : point :=
  if Z.eqb src tgt then p else (p.1 + 1, p.2)%Z.

Definition state_row (s : string) (x : Z) : row :=
  mk_row [("STUSPS", VStr s); ("NAME", VStr s)] [(x, 0%Z); (x, 1%Z)].

(** Four NAD83 (EPSG:4269) states, one of them a territory. *)
Definition sample_states : frame :=
  mk_frame ["STUSPS"; "NAME"; "geometry"]
           [state_row "CA" 1; state_row "NV" 2; state_row "PR" 3; state_row "TX" 4]
           (Some 4269%Z).

Definition sample_regions : frame :=
  mk_frame ["bea_region"; "geometry"]
           [mk_row [("bea_region", VStr "Far West")] [(2, 0); (2, 1); (3, 0); (3, 1)]%Z;
            mk_row [("bea_region", VStr "Southwest")] [(5, 0); (5, 1)]%Z]
           (Some 4326%Z).

(** Two codes absent from BEA_MAP, around a territory and a state. *)
Definition unmapped_states : frame :=
  mk_frame ["STUSPS"; "NAME"; "geometry"]
           [state_row "ZZ" 1; state_row "PR" 2; state_row "CA" 3; state_row "YY" 4]
           (Some 4269%Z).

(** Every BEA_MAP code once, plus Puerto Rico. *)
Definition all_states : frame :=
  mk_frame ["STUSPS"; "NAME"; "geometry"]
           (map (fun s => state_row s 0) (map fst BEA_MAP) ++ [state_row "PR" 9])
           (Some 4269%Z).

(** A server answering every request with [status] and an archive with
    entries [names]; a reader returning [df]; a writer that succeeds; the
    usage lines of the parser. *)
Definition census_fetch (status : Z) (names : option (list string)) (_ : string)
  : exc + response :=
  inr (mk_response status names).

Definition layer_reader (df : frame) (_ : list string) (_ : string) : exc + frame := inr df.

Definition writer_ok (_ : string) (_ : frame) : option exc := None.

Definition argparse_usage (scale : string) : list string :=
  ["usage: make_bea_regions.py [-h] [--output OUTPUT] [--year YEAR]";
   "                           [--scale {5m,20m}]";
   "make_bea_regions.py: error: argument --scale: invalid choice: '" +:+ scale +:+
   "' (choose from '5m', '20m')"].

Definition shp_archive : list string := ["cb_2022_us_state_20m.dbf"; "cb_2022_us_state_20m.shp"; "cb_2022_us_state_20m.shp.xml"].

Definition empty_world : world := mk_world [] [] ∅.

(** ** Lemmas on the helpers *)

Lemma mem_str_In (x : string) (l : list string) : mem_str x l = true <-> In x l.
Proof.
  unfold mem_str. rewrite existsb_exists. split.
  - intros [y [Hy Heq]]. apply bool_decide_eq_true in Heq. subst. exact Hy.
  - intros H. exists x. split; [exact H | apply bool_decide_eq_true; reflexivity].
Qed.

Lemma insert_str_perm (x : string) (l : list string) : Permutation (insert_str x l) (x :: l).
Proof.
  induction l as [|y l IH]; simpl; [reflexivity|].
  destruct (String.leb x y); [reflexivity|].
  transitivity (y :: x :: l); [constructor; exact IH | constructor].
Qed.

Lemma sort_str_perm (l : list string) : Permutation (sort_str l) l.
Proof.
  induction l as [|x l IH]; simpl; [reflexivity|].
  rewrite insert_str_perm. constructor. exact IH.
Qed.

Lemma dedup_str_In (x : string) (l : list string) : In x (dedup_str l) <-> In x l.
Proof.
  induction l as [|y l IH]; simpl; [tauto|].
  destruct (mem_str y l) eqn:Hy.
  - apply mem_str_In in Hy. rewrite IH. split; [tauto|]. intros [<-|H]; tauto.
  - simpl. rewrite IH. tauto.
Qed.

Lemma dedup_str_NoDup (l : list string) : NoDup (dedup_str l).
Proof.
  induction l as [|y l IH]; simpl; [constructor|].
  destruct (mem_str y l) eqn:Hy; [exact IH|].
  constructor; [|exact IH].
  rewrite list_elem_of_In, dedup_str_In. intros Hin.
  apply mem_str_In in Hin. congruence.
Qed.

Lemma group_keys_NoDup (c : string) (rs : list row) : NoDup (group_keys c rs).
Proof.
  unfold group_keys. rewrite sort_str_perm. apply dedup_str_NoDup.
Qed.

Lemma group_keys_In (c : string) (rs : list row) (k : string) :
  In k (group_keys c rs) <-> exists r, In r rs /\ get_cell r c = VStr k.
Proof.
  unfold group_keys. split.
  - intros H. apply (Permutation_in _ (sort_str_perm _)) in H.
    rewrite dedup_str_In in H. unfold key_strings in H. apply in_flat_map in H.
    destruct H as [r [Hr Hk]]. exists r. split; [exact Hr|].
    destruct (get_cell r c); simpl in Hk; [destruct Hk as [->|[]]; reflexivity | destruct Hk].
  - intros [r [Hr Hk]]. apply (Permutation_in _ (symmetry (sort_str_perm _))).
    rewrite dedup_str_In. unfold key_strings. apply in_flat_map.
    exists r. split; [exact Hr|]. rewrite Hk. left. reflexivity.
Qed.

Lemma filter_others_nil (cs : list string) (f : string -> value) (l : list string) :
  (forall a, In a l -> mem_str a cs = false) ->
  filter (fun kv : string * value => mem_str kv.1 cs) (map (fun a => (a, f a)) l) = [].
Proof.
  induction l as [|a l IH]; intros H; simpl; [reflexivity|].
  rewrite filter_cons_False.
  - apply IH. intros b Hb. apply H. right. exact Hb.
  - simpl. rewrite (H a (or_introl eq_refl)). simpl. tauto.
Qed.

Section Proofs.

Variable proj : Z -> Z -> point -> point.

(** A run succeeds exactly when the STUSPS column exists, every kept row
    is mapped and the frame has a CRS; the result then holds one row per
    group key, the native-CRS union reprojected to EPSG:4326. *)
Lemma build_ok_iff (df out : frame) :
  build_bea_regions proj df = inr out <->
  mem_str "STUSPS" (cols df) = true /\ missing_rows (classify df) = [] /\
  exists src, crs df = Some src /\
    out = mk_frame ["bea_region"; "geometry"]
            (map (region_row proj src (rows (classify df)))
                 (group_keys "bea_region" (rows (classify df))))
            (Some 4326%Z).
Proof.
  unfold build_bea_regions. set (cdf := classify df).
  destruct (mem_str "STUSPS" (cols df)) eqn:Hc; cbn [negb].
  2:{ split; [intros H; discriminate H | intros [H _]; discriminate H]. }
  destruct (missing_rows cdf) as [|m ms] eqn:Hm.
  2:{ rewrite bool_decide_eq_true_2 by (cbn; lia).
      split; [intros H; discriminate H | intros [_ [H _]]; discriminate H]. }
  rewrite bool_decide_eq_false_2 by (cbn; lia).
  unfold to_crs.
  replace (crs (dissolve "bea_region" cdf)) with (crs df) by reflexivity.
  destruct (crs df) as [src|] eqn:Hsrc.
  2:{ split; [intros H; discriminate H | intros [_ [_ [s [Hs _]]]]; discriminate Hs]. }
  unfold select_cols. cbn [cols].
  assert (Hsel : forallb (fun c => mem_str c (cols (dissolve "bea_region" cdf)))
                   ["bea_region"; "geometry"] = true).
  { unfold dissolve. cbn [cols forallb].
    rewrite (proj2 (mem_str_In "bea_region" _)) by (left; reflexivity).
    rewrite (proj2 (mem_str_In "geometry" _)) by (right; left; reflexivity).
    reflexivity. }
  rewrite Hsel.
  assert (Hrows : forall k, In k (group_keys "bea_region" (rows cdf)) ->
    (fun r : row => mk_row (filter (fun kv : string * value => mem_str kv.1 ["bea_region"; "geometry"]) (cells r)) (geom r))
      ((fun r : row => mk_row (cells r) (map (proj src 4326) (geom r)))
         (dissolve_row "bea_region"
            (filter (fun a => mem_str a ["bea_region"; "geometry"] = false) (cols cdf)) (rows cdf) k))
    = region_row proj src (rows cdf) k).
  { intros k _. unfold dissolve_row, region_row. cbn [cells geom]. f_equal.
    rewrite filter_cons_True by (simpl; tauto).
    rewrite filter_others_nil; [reflexivity|].
    intros a Ha. apply list_elem_of_In in Ha. apply list_elem_of_filter in Ha.
    destruct Ha as [Ha _]. destruct (mem_str a ["bea_region"; "geometry"]); [|reflexivity].
    simpl in Ha. tauto. }
  unfold dissolve. cbn [rows cols crs]. rewrite !map_map.
  rewrite (map_ext_in _ _ _ Hrows).
  split.
  - intros H. injection H as <-. split; [reflexivity|]. split; [reflexivity|].
    exists src. split; reflexivity.
  - intros [_ [_ [src' [Hs' ->]]]]. injection Hs' as <-. reflexivity.
Qed.

Lemma get_set_cell_same (c : string) (v : value) (r : row) :
  get_cell (set_cell c v r) c = v.
Proof.
  destruct r as [cs g]. unfold get_cell, set_cell. cbn [cells].
  induction cs as [|[k w] cs IH]; simpl.
  - rewrite bool_decide_eq_true_2; reflexivity.
  - destruct (bool_decide (c = k)) eqn:Hk; simpl.
    + rewrite bool_decide_eq_true_2; [reflexivity|]. apply bool_decide_eq_true in Hk. exact Hk.
    + rewrite Hk. exact IH.
Qed.

Lemma get_set_cell_other (c c' : string) (v : value) (r : row) :
  c <> c' -> get_cell (set_cell c v r) c' = get_cell r c'.
Proof.
  intros Hne. destruct r as [cs g]. unfold get_cell, set_cell. cbn [cells].
  induction cs as [|[k w] cs IH]; simpl.
  - rewrite bool_decide_eq_false_2; [reflexivity|congruence].
  - destruct (bool_decide (c = k)) eqn:Hk; simpl.
    + apply bool_decide_eq_true in Hk. subst k.
      rewrite bool_decide_eq_false_2; [reflexivity|congruence].
    + destruct (bool_decide (c' = k)); [reflexivity|exact IH].
Qed.

Lemma NoDup_map_VStr (l : list string) : NoDup l -> NoDup (map VStr l).
Proof.
  induction l as [|x l IH]; simpl; intros H; [constructor|].
  apply NoDup_cons in H as [Hx Hl]. apply NoDup_cons. split; [|exact (IH Hl)].
  rewrite list_elem_of_In, in_map_iff. intros [y [Hy Hin]]. injection Hy as ->.
  apply Hx, list_elem_of_In, Hin.
Qed.

Lemma classify_filter_idem (df : frame) :
  classify (filter_rows not_territory df) = classify df.
Proof.
  unfold classify, filter_rows. cbn [cols rows crs]. f_equal.
  rewrite list_filter_filter. f_equal. apply list_filter_iff. tauto.
Qed.

(** Every failure happens before the union: a missing STUSPS column, an
    unmapped kept row, or a frame without CRS. *)
Lemma build_error_cases (df : frame) (e : exc) :
  build_bea_regions proj df = inl e ->
  e = key_error_stusps \/
  (missing_rows (classify df) <> [] /\
   e = missing_mapping_error (map (fun r => get_cell r "STUSPS") (missing_rows (classify df)))) \/
  e = naive_crs_error.
Proof.
  unfold build_bea_regions. set (cdf := classify df).
  destruct (mem_str "STUSPS" (cols df)); cbn [negb].
  2:{ intros H. injection H as <-. left. reflexivity. }
  destruct (missing_rows cdf) as [|m ms] eqn:Hm.
  2:{ rewrite bool_decide_eq_true_2 by (cbn; lia). intros H. injection H as <-.
      right. left. split; [discriminate|reflexivity]. }
  rewrite bool_decide_eq_false_2 by (cbn; lia).
  unfold to_crs.
  replace (crs (dissolve "bea_region" cdf)) with (crs df) by reflexivity.
  destruct (crs df) as [src|].
  2:{ intros H. injection H as <-. right. right. reflexivity. }
  unfold select_cols. cbn [cols].
  assert (Hsel : forallb (fun c => mem_str c (cols (dissolve "bea_region" cdf)))
                   ["bea_region"; "geometry"] = true).
  { unfold dissolve. cbn [cols forallb].
    rewrite (proj2 (mem_str_In "bea_region" _)) by (left; reflexivity).
    rewrite (proj2 (mem_str_In "geometry" _)) by (right; left; reflexivity).
    reflexivity. }
  rewrite Hsel. intros H. discriminate H.
Qed.

Lemma region_row_label (src : Z) (rs : list row) (k : string) :
  get_cell (region_row proj src rs k) "bea_region" = VStr k.
Proof. reflexivity. Qed.

(** ** C1: one region per distinct label *)

(** C1: on success the output holds exactly one row per distinct
    [bea_region] label of the classified input: the labels of the output
    rows are pairwise distinct, and a label occurs in the output iff some
    classified input row carries it. *)
Theorem build_one_region_per_label (df out : frame) :
  build_bea_regions proj df = inr out ->
  NoDup (map (fun r => get_cell r "bea_region") (rows out)) /\
  (forall k, In (VStr k) (map (fun r => get_cell r "bea_region") (rows out)) <->
             exists r, In r (rows (classify df)) /\ get_cell r "bea_region" = VStr k).
Proof.
  intros H. apply build_ok_iff in H as [_ [_ [src [_ ->]]]]. cbn [rows].
  rewrite map_map. erewrite map_ext by (intros k; apply region_row_label).
  split.
  - apply NoDup_map_VStr, group_keys_NoDup.
  - intros k. rewrite <- group_keys_In. rewrite in_map_iff. split.
    + intros [k' [Hk Hin]]. injection Hk as ->. exact Hin.
    + intros Hin. exists k. split; [reflexivity|exact Hin].
Qed.

(** ** C3: union in the native CRS, then one reprojection for all *)


(** ** C9: the output keeps only [bea_region] and [geometry] *)

(** C9: on success the output columns are exactly [bea_region] and
    [geometry], and each output row carries the single attribute
    [bea_region] besides its geometry. *)
Theorem build_output_columns (df out : frame) :
  build_bea_regions proj df = inr out ->
  cols out = ["bea_region"; "geometry"] /\
  Forall (fun r => map fst (cells r) = ["bea_region"]) (rows out).
Proof.
  intros H. apply build_ok_iff in H as [_ [_ [src [_ ->]]]]. cbn [rows cols].
  split; [reflexivity|].
  apply Forall_forall. intros r Hr. apply list_elem_of_In, in_map_iff in Hr as [k [<- _]]. reflexivity.
Qed.

(** ** C8: the STUSPS column is checked first *)

(** C8: a frame without an STUSPS column fails with a KeyError; in the
    heap run the heap is returned untouched, so no filtering, mapping or
    union has taken place. *)
Theorem build_requires_stusps (h : gmap nat frame) (loc : nat) (df : frame) :
  h !! loc = Some df -> mem_str "STUSPS" (cols df) = false ->
  build_bea_regions proj df = inl key_error_stusps /\
  build_bea_regions_heap proj h loc = Some (h, inl key_error_stusps).
Proof.
  intros Hloc Hc. split.
  - unfold build_bea_regions. rewrite Hc. reflexivity.
  - unfold build_bea_regions_heap. rewrite Hloc. cbn [mbind option_bind]. rewrite Hc. reflexivity.
Qed.

(** ** C4: territories are dropped silently, before the mapping check *)

(** C4: the result on a frame equals the result on the frame with its
    territory rows removed, and no exception carries a territory code. *)
Theorem build_territories_dropped_first (df : frame) :
  build_bea_regions proj df = build_bea_regions proj (filter_rows not_territory df) /\
  match build_bea_regions proj df with
  | inl e => Forall (fun v => isin v TERRITORIES = false) (exc_payload e)
  | inr _ => True
  end.
Proof.
  split.
  - unfold build_bea_regions at 2. rewrite classify_filter_idem. reflexivity.
  - destruct (build_bea_regions proj df) as [e|out] eqn:Hb; [|exact I].
    apply build_error_cases in Hb as [->|[[_ ->]| ->]]; try constructor.
    cbn [exc_payload missing_mapping_error]. apply Forall_forall. intros v Hv.
    apply list_elem_of_In in Hv.
    apply in_map_iff in Hv as [r [<- Hr]].
    unfold missing_rows, classify, set_column, filter_rows in Hr. cbn [rows] in Hr.
    apply list_elem_of_In, list_elem_of_filter in Hr as [_ Hr].
    apply list_elem_of_In, in_map_iff in Hr as [r0 [<- Hr0]].
    apply list_elem_of_In, list_elem_of_filter in Hr0 as [Hnt _].
    rewrite get_set_cell_other by discriminate.
    unfold not_territory in Hnt. destruct (isin _ _); [discriminate|reflexivity].
Qed.

Lemma missing_ids_classify (df : frame) :
  map (fun r => get_cell r "STUSPS") (missing_rows (classify df)) =
  map (fun r => get_cell r "STUSPS")
      (filter (fun r => not_territory r = true /\ assign_region r = VNaN) (rows df)).
Proof.
  destruct df as [cs rs c]. unfold missing_rows, classify, set_column, filter_rows.
  cbn [rows]. induction rs as [|r rs IH]; [reflexivity|].
  rewrite (filter_cons (fun r => not_territory r = true)).
  rewrite (filter_cons (fun r => not_territory r = true /\ assign_region r = VNaN)).
  destruct (not_territory r) eqn:Hnt.
  - rewrite decide_True by reflexivity. cbn [map].
    rewrite filter_cons. rewrite get_set_cell_same.
    destruct (assign_region r) as [l|] eqn:Ha; cbn [isna].
    + rewrite decide_False by discriminate. rewrite decide_False by (intros [_ H]; discriminate H).
      exact IH.
    + rewrite decide_True by reflexivity. rewrite decide_True by tauto. cbn [map].
      rewrite get_set_cell_other by discriminate. f_equal. exact IH.
  - rewrite decide_False by discriminate. rewrite decide_False by (intros [H _]; discriminate H).
    exact IH.
Qed.

(** ** C2: every unmapped identifier is reported at once *)

(** C2 (amended): when some kept row has an STUSPS code absent from
    BEA_MAP, the run fails with a ValueError that lists the STUSPS code of
    every kept unmapped row, in row order, and produces no frame. *)
Theorem build_reports_all_unmapped (df : frame) :
  mem_str "STUSPS" (cols df) = true ->
  (exists r, In r (rows df) /\ not_territory r = true /\ assign_region r = VNaN) ->
  build_bea_regions proj df =
  inl (missing_mapping_error
         (map (fun r => get_cell r "STUSPS")
              (filter (fun r => not_territory r = true /\ assign_region r = VNaN) (rows df)))).
Proof.
  intros Hc [r [Hr Hun]]. unfold build_bea_regions. rewrite Hc. cbn [negb].
  rewrite bool_decide_eq_true_2.
  - rewrite missing_ids_classify. reflexivity.
  - intros Hlen. apply length_zero_iff_nil in Hlen.
    pose proof (missing_ids_classify df) as Hm. rewrite Hlen in Hm. cbn [map] in Hm.
    assert (Hin : In (get_cell r "STUSPS")
                    (map (fun r => get_cell r "STUSPS")
                         (filter (fun r => not_territory r = true /\ assign_region r = VNaN) (rows df)))).
    { apply (in_map (fun r => get_cell r "STUSPS")), list_elem_of_In, list_elem_of_filter.
      split; [exact Hun|].
      apply list_elem_of_In, Hr. }
    rewrite <- Hm in Hin. destruct Hin.
Qed.

Lemma union_all_empty (gs : list geometry) :
  Forall (fun g => g = []) gs -> union_all gs = [].
Proof.
  unfold union_all. induction gs as [|g gs IH]; intros Hgs; [reflexivity|].
  apply Forall_cons in Hgs as [-> Hgs]. exact (IH Hgs).
Qed.

(** ** C5: no check on the result of the union *)

(** C5 (amended): no exception of a run is a GeometryUnionError, and the
    union of a group is not checked: when a run succeeds, a group whose
    member geometries are all empty is emitted as a region whose geometry
    is empty. *)
Theorem build_no_union_check (df : frame) :
  (forall e, build_bea_regions proj df = inl e -> exc_class e <> "GeometryUnionError") /\
  (forall out k, build_bea_regions proj df = inr out ->
     (exists r, In r (rows (classify df)) /\ get_cell r "bea_region" = VStr k) ->
     Forall (fun r => geom r = []) (members "bea_region" k (rows (classify df))) ->
     In (mk_row [("bea_region", VStr k)] []) (rows out)).
Proof.
  split.
  - intros e H. apply build_error_cases in H as [->|[[_ ->]| ->]]; discriminate.
  - intros out k H Hk Hempty. apply build_ok_iff in H as [_ [_ [src [_ ->]]]]. cbn [rows].
    apply group_keys_In in Hk.
    replace (mk_row [("bea_region", VStr k)] []) with (region_row proj src (rows (classify df)) k).
    + apply in_map. exact Hk.
    + unfold region_row. rewrite union_all_empty; [reflexivity|].
      apply Forall_map. exact Hempty.
Qed.

(** ** C6: input empty after the filter *)


Lemma alloc_loc_ne (h : gmap nat frame) (f x : frame) (l : nat) :
  h !! l = Some x -> (alloc h f).2 <> l.
Proof.
  intros Hl Heq. unfold alloc in Heq. cbn in Heq.
  apply (is_fresh (dom h)). rewrite Heq. apply elem_of_dom. exists x. exact Hl.
Qed.

Lemma alloc_extends (h : gmap nat frame) (f x : frame) (l : nat) :
  h !! l = Some x -> (alloc h f).1 !! l = Some x.
Proof.
  intros Hl. pose proof (alloc_loc_ne h f x l Hl) as Hne.
  unfold alloc in *. cbn in *. rewrite lookup_insert_ne by exact Hne. exact Hl.
Qed.

(** The heap run only allocates fresh frames and writes to a frame it
    allocated itself: every object present before the call is unchanged. *)
Lemma build_heap_extends (h h' : gmap nat frame) (loc : nat) (res : exc + nat) :
  build_bea_regions_heap proj h loc = Some (h', res) ->
  forall l x, h !! l = Some x -> h' !! l = Some x.
Proof.
  unfold build_bea_regions_heap. intros Hb l x Hx.
  destruct (h !! loc) as [st|]; cbn [mbind option_bind] in Hb; [|discriminate Hb].
  destruct (negb _); [injection Hb as <- _; exact Hx|].
  destruct (alloc h (filter_rows not_territory st)) as [h1 l1] eqn:E1.
  assert (X1 : h1 !! l = Some x)
    by (change h1 with (h1, l1).1; rewrite <- E1; apply alloc_extends; exact Hx).
  destruct (h1 !! l1) as [f1|]; cbn [mbind option_bind] in Hb; [|discriminate Hb].
  destruct (alloc h1 f1) as [h2 l2] eqn:E2.
  assert (X2 : h2 !! l = Some x)
    by (change h2 with (h2, l2).1; rewrite <- E2; apply alloc_extends; exact X1).
  assert (N2 : l2 <> l)
    by (change l2 with (h2, l2).2; rewrite <- E2; apply (alloc_loc_ne _ _ x); exact X1).
  destruct (h2 !! l2) as [f2|]; cbn [mbind option_bind] in Hb; [|discriminate Hb].
  set (h3 := <[l2 := set_column "bea_region" assign_region f2]> h2) in Hb.
  assert (X3 : h3 !! l = Some x) by (unfold h3; rewrite lookup_insert_ne by exact N2; exact X2).
  destruct (h3 !! l2) as [f3|]; cbn [mbind option_bind] in Hb; [|discriminate Hb].
  destruct (bool_decide _); [injection Hb as <- _; exact X3|].
  destruct (alloc h3 (dissolve "bea_region" f3)) as [h4 l4] eqn:E4.
  assert (X4 : h4 !! l = Some x)
    by (change h4 with (h4, l4).1; rewrite <- E4; apply alloc_extends; exact X3).
  destruct (h4 !! l4) as [f4|]; cbn [mbind option_bind] in Hb; [|discriminate Hb].
  destruct (to_crs proj 4326 f4) as [e|f5]; [injection Hb as <- _; exact X4|].
  destruct (alloc h4 f5) as [h5 l5] eqn:E5.
  assert (X5 : h5 !! l = Some x)
    by (change h5 with (h5, l5).1; rewrite <- E5; apply alloc_extends; exact X4).
  destruct (h5 !! l5) as [f5'|]; cbn [mbind option_bind] in Hb; [|discriminate Hb].
  destruct (select_cols ["bea_region"; "geometry"] f5') as [e|f6];
    [injection Hb as <- _; exact X5|].
  destruct (alloc h5 f6) as [h6 l6] eqn:E6. injection Hb as <- _.
  change h6 with (h6, l6).1. rewrite <- E6. apply alloc_extends. exact X5.
Qed.

Lemma alloc_lookup_new (h h' : gmap nat frame) (f : frame) (l : nat) :
  alloc h f = (h', l) -> h' !! l = Some f.
Proof. unfold alloc. intros E. injection E as <- <-. apply lookup_insert_eq. Qed.

(** The heap run computes [build_bea_regions]: it raises the same
    exception, or stores the same result frame at the returned location. *)
Lemma build_heap_agrees (h : gmap nat frame) (loc : nat) (df : frame) :
  h !! loc = Some df ->
  exists h' res, build_bea_regions_heap proj h loc = Some (h', res) /\
    match res, build_bea_regions proj df with
    | inl e, inl e' => e = e'
    | inr l, inr out => h' !! l = Some out
    | _, _ => False
    end.
Proof.
  intros Hloc. unfold build_bea_regions_heap, build_bea_regions.
  rewrite Hloc. cbn [mbind option_bind].
  destruct (negb _); [eexists _, _; split; reflexivity|].
  destruct (alloc h (filter_rows not_territory df)) as [h1 l1] eqn:E1.
  assert (L1 : h1 !! l1 = Some (filter_rows not_territory df))
    by exact (alloc_lookup_new _ _ _ _ E1).
  rewrite L1. cbn [mbind option_bind].
  destruct (alloc h1 (filter_rows not_territory df)) as [h2 l2] eqn:E2.
  assert (L2 : h2 !! l2 = Some (filter_rows not_territory df))
    by exact (alloc_lookup_new _ _ _ _ E2).
  rewrite L2. cbn [mbind option_bind].
  rewrite lookup_insert_eq. cbn [mbind option_bind].
  change (set_column "bea_region" assign_region (filter_rows not_territory df)) with (classify df).
  set (h3 := <[l2 := classify df]> h2).
  destruct (bool_decide _); [eexists _, _; split; reflexivity|].
  destruct (alloc h3 (dissolve "bea_region" (classify df))) as [h4 l4] eqn:E4.
  assert (L4 : h4 !! l4 = Some (dissolve "bea_region" (classify df)))
    by exact (alloc_lookup_new _ _ _ _ E4).
  rewrite L4. cbn [mbind option_bind].
  destruct (to_crs proj 4326 (dissolve "bea_region" (classify df))) as [e|f5];
    [eexists _, _; split; reflexivity|].
  destruct (alloc h4 f5) as [h5 l5] eqn:E5.
  assert (L5 : h5 !! l5 = Some f5)
    by exact (alloc_lookup_new _ _ _ _ E5).
  rewrite L5. cbn [mbind option_bind].
  destruct (select_cols ["bea_region"; "geometry"] f5) as [e|f6];
    [eexists _, _; split; reflexivity|].
  destruct (alloc h5 f6) as [h6 l6] eqn:E6.
  exists h6, (inr l6). split; [reflexivity|].
  exact (alloc_lookup_new _ _ _ _ E6).
Qed.

(** ** C7: the input frame is not modified *)

(** C7: after a heap run on the frame at [loc] (whether it succeeds or
    raises), the frame at [loc] is still the input frame, and so is every
    other object that existed before the call. *)
Theorem build_heap_input_unchanged (h h' : gmap nat frame) (loc : nat) (df : frame)
    (res : exc + nat) :
  h !! loc = Some df ->
  build_bea_regions_heap proj h loc = Some (h', res) ->
  h' !! loc = Some df /\ (forall l x, h !! l = Some x -> h' !! l = Some x).
Proof.
  intros Hloc Hb. split.
  - exact (build_heap_extends h h' loc res Hb loc df Hloc).
  - exact (build_heap_extends h h' loc res Hb).
Qed.


Lemma assoc_Some_In {A} (k : string) (v : A) (m : list (string * A)) :
  assoc k m = Some v -> In (k, v) m.
Proof.
  induction m as [|[k' w] m IH]; simpl; [discriminate|].
  destruct (bool_decide (k = k')) eqn:Hk.
  - apply bool_decide_eq_true in Hk. subst k'. intros H. injection H as ->. left. reflexivity.
  - intros H. right. exact (IH H).
Qed.

Lemma assoc_In_NoDup {A} (k : string) (v : A) (m : list (string * A)) :
  NoDup (map fst m) -> In (k, v) m -> assoc k m = Some v.
Proof.
  induction m as [|[k' w] m IH]; simpl; intros Hnd Hin; [destruct Hin|].
  apply NoDup_cons in Hnd as [Hk' Hnd].
  destruct Hin as [Heq|Hin].
  - injection Heq as -> ->. rewrite bool_decide_eq_true_2 by reflexivity. reflexivity.
  - rewrite bool_decide_eq_false_2; [exact (IH Hnd Hin)|].
    intros ->. apply Hk', list_elem_of_In, in_map_iff. exists (k', v). split; [reflexivity|exact Hin].
Qed.

Lemma BEA_MAP_keys_NoDup : NoDup (map fst BEA_MAP).
Proof. apply (bool_decide_unpack _). vm_compute. exact I. Qed.

Lemma BEA_MAP_keys_not_territory (s : string) :
  In s (map fst BEA_MAP) -> mem_str s TERRITORIES = false.
Proof.
  intros Hs. simpl in Hs. repeat destruct Hs as [<-|Hs]; try reflexivity. destruct Hs.
Qed.

Lemma BEA_MAP_labels :
  dedup_str (map snd BEA_MAP) =
  ["New England"; "Mideast"; "Great Lakes"; "Plains"; "Southeast"; "Southwest"; "Rocky Mountain"; "Far West"].
Proof. reflexivity. Qed.

(** With every kept code in BEA_MAP, the group keys of the classified
    frame are the labels of the codes present. *)
Lemma classified_label_In (df : frame) (k : string) :
  In k (group_keys "bea_region" (rows (classify df))) <->
  exists r s, In r (rows df) /\ not_territory r = true /\ get_cell r "STUSPS" = VStr s /\
              assoc s BEA_MAP = Some k.
Proof.
  rewrite group_keys_In. unfold classify, set_column, filter_rows. cbn [rows]. split.
  - intros [r [Hr Hk]]. apply in_map_iff in Hr as [r0 [<- Hr0]].
    apply list_elem_of_In, list_elem_of_filter in Hr0 as [Hnt Hr0].
    rewrite get_set_cell_same in Hk. unfold assign_region, map_value in Hk.
    destruct (get_cell r0 "STUSPS") as [s|] eqn:Hs; [|discriminate Hk].
    destruct (assoc s BEA_MAP) as [l|] eqn:Ha; [|discriminate Hk]. injection Hk as ->.
    exists r0, s. repeat split; [apply list_elem_of_In, Hr0|exact Hnt|exact Hs|exact Ha].
  - intros [r [s [Hr [Hnt [Hs Ha]]]]].
    exists (set_cell "bea_region" (assign_region r) r). split.
    + apply (in_map (fun r => set_cell "bea_region" (assign_region r) r)).
      apply list_elem_of_In, list_elem_of_filter. split; [exact Hnt|].
      apply list_elem_of_In, Hr.
    + rewrite get_set_cell_same. unfold assign_region, map_value. rewrite Hs, Ha. reflexivity.
Qed.

(** An input holding every BEA_MAP code yields the 8 labels as group keys
    of its classified frame, once the mapping check has passed. *)
Lemma covering_group_keys (df : frame) :
  missing_rows (classify df) = [] ->
  (forall s, In s (map fst BEA_MAP) -> exists r, In r (rows df) /\ get_cell r "STUSPS" = VStr s) ->
  List.length (group_keys "bea_region" (rows (classify df))) = 8.
Proof.
  intros _ Hcover.
  assert (Hperm : Permutation (group_keys "bea_region" (rows (classify df)))
                              (dedup_str (map snd BEA_MAP))).
  { apply stdpp.list_relations.list.NoDup_Permutation; [apply group_keys_NoDup|apply dedup_str_NoDup|].
    intros k. rewrite !list_elem_of_In, dedup_str_In, classified_label_In. split.
    - intros [r [s [_ [_ [_ Ha]]]]]. apply assoc_Some_In in Ha.
      apply in_map_iff. exists (s, k). split; [reflexivity|exact Ha].
    - intros Hk. apply in_map_iff in Hk as [[s k'] [Hk' Hin]]. cbn in Hk'. subst k'.
      assert (Hs : In s (map fst BEA_MAP))
        by (apply in_map_iff; exists (s, k); split; [reflexivity|exact Hin]).
      destruct (Hcover s Hs) as [r [Hr Hrs]].
      exists r, s. repeat split; [exact Hr| |exact Hrs|].
      + unfold not_territory. rewrite Hrs. cbn [isin].
        rewrite (BEA_MAP_keys_not_territory s Hs). reflexivity.
      + exact (assoc_In_NoDup s k BEA_MAP BEA_MAP_keys_NoDup Hin). }
  rewrite (Permutation_length Hperm), BEA_MAP_labels. reflexivity.
Qed.

(** ** C10: the fixed tables *)

(** C10: BEA_MAP has 51 distinct keys and exactly 8 distinct labels, no
    territory code is a key, and a successful run on a frame that contains
    every BEA_MAP key yields exactly 8 regions. *)
Theorem bea_map_eight_regions (df out : frame) :
  (forall s, In s (map fst BEA_MAP) -> exists r, In r (rows df) /\ get_cell r "STUSPS" = VStr s) ->
  build_bea_regions proj df = inr out ->
  List.length BEA_MAP = 51 /\ NoDup (map fst BEA_MAP) /\
  List.length (dedup_str (map snd BEA_MAP)) = 8 /\
  Forall (fun t => ~ In t (map fst BEA_MAP)) TERRITORIES /\
  List.length (rows out) = 8.
Proof.
  intros Hcover Hb.
  split; [reflexivity|]. split; [exact BEA_MAP_keys_NoDup|].
  split; [rewrite BEA_MAP_labels; reflexivity|].
  split.
  { apply Forall_forall. intros t Ht Hin.
    pose proof (BEA_MAP_keys_not_territory t Hin) as Hf.
    apply list_elem_of_In, mem_str_In in Ht. congruence. }
  apply build_ok_iff in Hb as [_ [Hmiss [src [_ ->]]]]. cbn [rows].
  rewrite length_map. exact (covering_group_keys df Hmiss Hcover).
Qed.

End Proofs.

(** ** Concrete runs *)

Lemma sample_run : build_bea_regions shift_proj sample_states = inr sample_regions.
Proof. reflexivity. Qed.

Lemma build_one_region_per_label_witness :
  build_bea_regions shift_proj sample_states = inr sample_regions /\
  NoDup (map (fun r => get_cell r "bea_region") (rows sample_regions)) /\
  (forall k, In (VStr k) (map (fun r => get_cell r "bea_region") (rows sample_regions)) <->
             exists r, In r (rows (classify sample_states)) /\ get_cell r "bea_region" = VStr k).
Proof.
  split; [reflexivity|].
  apply (build_one_region_per_label shift_proj sample_states sample_regions). reflexivity.
Defined.


Lemma build_output_columns_witness :
  build_bea_regions shift_proj sample_states = inr sample_regions /\
  cols sample_regions = ["bea_region"; "geometry"] /\
  Forall (fun r => map fst (cells r) = ["bea_region"]) (rows sample_regions).
Proof.
  split; [reflexivity|].
  apply (build_output_columns shift_proj sample_states sample_regions). reflexivity.
Defined.

Lemma build_requires_stusps_witness :
  let df := mk_frame ["NAME"; "geometry"] [mk_row [("NAME", VStr "Texas")] [(0, 0)%Z]] (Some 4269%Z) in
  ({[0 := df]} : gmap nat frame) !! 0 = Some df /\ mem_str "STUSPS" (cols df) = false /\
  build_bea_regions shift_proj df = inl key_error_stusps /\
  build_bea_regions_heap shift_proj {[0 := df]} 0 = Some ({[0 := df]}, inl key_error_stusps).
Proof.
  intros df. split; [reflexivity|]. split; [reflexivity|].
  apply (build_requires_stusps shift_proj {[0 := df]} 0 df); reflexivity.
Defined.

Lemma build_reports_all_unmapped_witness :
  mem_str "STUSPS" (cols unmapped_states) = true /\
  not_territory (state_row "ZZ" 1) = true /\ assign_region (state_row "ZZ" 1) = VNaN /\
  build_bea_regions shift_proj unmapped_states =
  inl (missing_mapping_error
         (map (fun r => get_cell r "STUSPS")
              (filter (fun r => not_territory r = true /\ assign_region r = VNaN)
                      (rows unmapped_states)))).
Proof.
  split; [reflexivity|]. split; [reflexivity|]. split; [reflexivity|].
  apply (build_reports_all_unmapped shift_proj unmapped_states); [reflexivity|].
  exists (state_row "ZZ" 1). split; [left; reflexivity|]. split; reflexivity.
Defined.

Lemma unmapped_run :
  build_bea_regions shift_proj unmapped_states =
  inl (mk_exc "ValueError" [VStr "ZZ"; VStr "YY"]).
Proof. reflexivity. Qed.

(** C2 counterexample: the unmapped codes are reported by a ValueError,
    not by an exception of class MappingIncompleteError. *)
Lemma build_unmapped_not_mapping_incomplete :
  ~ exists e, build_bea_regions shift_proj unmapped_states = inl e /\
              exc_class e = "MappingIncompleteError".
Proof. intros [e [H Hc]]. vm_compute in H. injection H as <-. discriminate Hc. Qed.

Lemma build_no_union_check_witness :
  let df := mk_frame ["STUSPS"; "geometry"] [mk_row [("STUSPS", VStr "CA")] []] (Some 4269%Z) in
  let out := mk_frame ["bea_region"; "geometry"] [mk_row [("bea_region", VStr "Far West")] []]
                      (Some 4326%Z) in
  build_bea_regions shift_proj df = inr out /\
  In (set_cell "bea_region" (VStr "Far West") (mk_row [("STUSPS", VStr "CA")] []))
     (rows (classify df)) /\
  In (mk_row [("bea_region", VStr "Far West")] []) (rows out).
Proof.
  intros df out. split; [reflexivity|]. split; [left; reflexivity|].
  destruct (build_no_union_check shift_proj df) as [_ H].
  apply (H out "Far West"); [reflexivity| |].
  - exists (set_cell "bea_region" (VStr "Far West") (mk_row [("STUSPS", VStr "CA")] [])).
    split; [left; reflexivity|reflexivity].
  - repeat constructor.
Defined.

(** C5 counterexample: a state with an empty geometry gives a group whose
    union is empty; the run succeeds and emits that empty region. *)
Lemma build_emits_empty_union :
  build_bea_regions shift_proj
    (mk_frame ["STUSPS"; "geometry"] [mk_row [("STUSPS", VStr "CA")] []] (Some 4269%Z)) =
  inr (mk_frame ["bea_region"; "geometry"] [mk_row [("bea_region", VStr "Far West")] []]
                (Some 4326%Z)).
Proof. reflexivity. Qed.



Lemma build_heap_input_unchanged_witness :
  ({[0 := sample_states]} : gmap nat frame) !! 0 = Some sample_states /\
  match build_bea_regions_heap shift_proj {[0 := sample_states]} 0 with
  | Some (h', _) => h' !! 0 = Some sample_states /\
      (forall l x, ({[0 := sample_states]} : gmap nat frame) !! l = Some x -> h' !! l = Some x)
  | None => False
  end.
Proof.
  split; [reflexivity|].
  destruct (build_bea_regions_heap shift_proj {[0 := sample_states]} 0) as [[h' res]|] eqn:E.
  - exact (build_heap_input_unchanged shift_proj {[0 := sample_states]} h' 0 sample_states res
             eq_refl E).
  - vm_compute in E. discriminate E.
Defined.

Lemma all_states_cover (s : string) :
  In s (map fst BEA_MAP) -> exists r, In r (rows all_states) /\ get_cell r "STUSPS" = VStr s.
Proof.
  intros Hs. exists (state_row s 0). split; [|reflexivity].
  cbn [rows all_states]. apply in_or_app. left.
  apply (in_map (fun s => state_row s 0)). exact Hs.
Qed.

Definition all_regions : frame :=
  match build_bea_regions shift_proj all_states with inr out => out | inl _ => all_states end.

Lemma bea_map_eight_regions_witness :
  build_bea_regions shift_proj all_states = inr all_regions /\
  List.length BEA_MAP = 51 /\ NoDup (map fst BEA_MAP) /\
  List.length (dedup_str (map snd BEA_MAP)) = 8 /\
  Forall (fun t => ~ In t (map fst BEA_MAP)) TERRITORIES /\
  List.length (rows all_regions) = 8.
Proof.
  assert (Hb : build_bea_regions shift_proj all_states = inr all_regions) by (vm_compute; reflexivity).
  split; [exact Hb|].
  exact (bea_map_eight_regions shift_proj all_states all_regions all_states_cover Hb).
Defined.

(** ** More of build_bea_regions *)

Section BuildProofs.

Variable proj : Z -> Z -> point -> point.


Lemma insert_str_hdrel (a x : string) (l : list string) :
  HdRel (fun u v => String.leb u v = true) a l -> String.leb a x = true ->
  HdRel (fun u v => String.leb u v = true) a (insert_str x l).
Proof.
  destruct l as [|y l]; simpl; intros Hh Hax.
  - constructor. exact Hax.
  - destruct (String.leb x y); constructor; [exact Hax|]. inversion Hh. assumption.
Qed.

Lemma insert_str_sorted (x : string) (l : list string) :
  Sorted (fun u v => String.leb u v = true) l ->
  Sorted (fun u v => String.leb u v = true) (insert_str x l).
Proof.
  induction l as [|y l IH]; simpl; intros Hs.
  - constructor; constructor.
  - destruct (String.leb x y) eqn:Hxy.
    + constructor; [exact Hs|]. constructor. exact Hxy.
    + inversion Hs as [|? ? Hl Hh]; subst. constructor; [exact (IH Hl)|].
      apply insert_str_hdrel; [exact Hh|].
      destruct (String.leb_total y x) as [H|H]; [exact H|congruence].
Qed.

Lemma sort_str_sorted (l : list string) : Sorted (fun u v => String.leb u v = true) (sort_str l).
Proof.
  induction l as [|x l IH]; simpl; [constructor|]. apply insert_str_sorted. exact IH.
Qed.

(** On success the regions come out in ascending order of their label
    (groupby sorts its keys). *)
Theorem build_regions_sorted (df out : frame) :
  build_bea_regions proj df = inr out ->
  exists ks, map (fun r => get_cell r "bea_region") (rows out) = map VStr ks /\
             Sorted (fun u v => String.leb u v = true) ks.
Proof.
  intros H. apply build_ok_iff in H as [_ [_ [src [_ ->]]]]. cbn [rows].
  exists (group_keys "bea_region" (rows (classify df))). split.
  - rewrite map_map. apply map_ext. intros k. apply region_row_label.
  - apply sort_str_sorted.
Qed.

(** A run that succeeds had an STUSPS column, a BEA_MAP code on every
    non-territory row, and a declared CRS. *)
Theorem build_success_requires (df out : frame) :
  build_bea_regions proj df = inr out ->
  mem_str "STUSPS" (cols df) = true /\
  (forall r, In r (rows df) -> not_territory r = true -> assign_region r <> VNaN) /\
  crs df <> None.
Proof.
  intros H. apply build_ok_iff in H as [Hc [Hm [src [Hs _]]]].
  split; [exact Hc|]. split; [|congruence].
  intros r Hr Hnt Hun.
  pose proof (missing_ids_classify df) as Hids. rewrite Hm in Hids. cbn [map] in Hids.
  symmetry in Hids. apply map_eq_nil in Hids.
  apply (filter_nil_not_elem_of _ _ r Hids); [tauto|apply list_elem_of_In, Hr].
Qed.

Lemma alloc_fresh (h h' : gmap nat frame) (f : frame) (l : nat) :
  alloc h f = (h', l) -> h !! l = None.
Proof.
  unfold alloc. intros E. injection E as _ <-.
  apply not_elem_of_dom. apply is_fresh.
Qed.

Lemma alloc_ext (h h' : gmap nat frame) (f : frame) (l : nat) :
  alloc h f = (h', l) -> forall l0 x, h !! l0 = Some x -> h' !! l0 = Some x.
Proof.
  intros E l0 x Hx. change h' with (h', l).1. rewrite <- E. apply alloc_extends. exact Hx.
Qed.

(** The frame the heap run returns is a new object: its location held
    nothing before the call, so the result never aliases the input or any
    other existing object. *)
Theorem build_heap_fresh_result (h h' : gmap nat frame) (loc l : nat) :
  build_bea_regions_heap proj h loc = Some (h', inr l) ->
  h !! l = None /\ is_Some (h' !! l).
Proof.
  unfold build_bea_regions_heap. intros Hb.
  destruct (h !! loc) as [st|]; cbn [mbind option_bind] in Hb; [|discriminate Hb].
  destruct (negb _); [discriminate Hb|].
  destruct (alloc h (filter_rows not_territory st)) as [h1 l1] eqn:E1.
  destruct (h1 !! l1) as [f1|]; cbn [mbind option_bind] in Hb; [|discriminate Hb].
  destruct (alloc h1 f1) as [h2 l2] eqn:E2.
  destruct (h2 !! l2) as [f2|] eqn:L2; cbn [mbind option_bind] in Hb; [|discriminate Hb].
  set (h3 := <[l2 := set_column "bea_region" assign_region f2]> h2) in Hb.
  assert (X3 : forall l0 x, h !! l0 = Some x -> h3 !! l0 = Some x).
  { intros l0 x Hx. pose proof (alloc_ext _ _ _ _ E1 l0 x Hx) as Hx1.
    unfold h3. rewrite lookup_insert_ne.
    - exact (alloc_ext _ _ _ _ E2 l0 x Hx1).
    - intros ->. rewrite (alloc_fresh _ _ _ _ E2) in Hx1. discriminate Hx1. }
  destruct (h3 !! l2) as [f3|]; cbn [mbind option_bind] in Hb; [|discriminate Hb].
  destruct (bool_decide _); [discriminate Hb|].
  destruct (alloc h3 (dissolve "bea_region" f3)) as [h4 l4] eqn:E4.
  destruct (h4 !! l4) as [f4|]; cbn [mbind option_bind] in Hb; [|discriminate Hb].
  destruct (to_crs proj 4326 f4) as [e|f5]; [discriminate Hb|].
  destruct (alloc h4 f5) as [h5 l5] eqn:E5.
  destruct (h5 !! l5) as [f5'|]; cbn [mbind option_bind] in Hb; [|discriminate Hb].
  destruct (select_cols ["bea_region"; "geometry"] f5') as [e|f6]; [discriminate Hb|].
  destruct (alloc h5 f6) as [h6 l6] eqn:E6. injection Hb as <- <-.
  split.
  - destruct (h !! l6) as [x|] eqn:Hx; [|reflexivity]. exfalso.
    pose proof (alloc_ext _ _ _ _ E5 l6 x (alloc_ext _ _ _ _ E4 l6 x (X3 l6 x Hx))) as H5.
    rewrite (alloc_fresh _ _ _ _ E6) in H5. discriminate H5.
  - rewrite (alloc_lookup_new _ _ _ _ E6). eexists. reflexivity.
Qed.

End BuildProofs.

(** ** download_states and main *)

Section ProgramProofs.

Variable proj : Z -> Z -> point -> point.
Variable fetch : string -> exc + response.
Variable read_file : list string -> string -> exc + frame.
Variable write_geojson : string -> frame -> option exc.
Variable usage_error : string -> list string.

(** [download_states] prints one line and makes one request, whatever
    happens next; it writes no GeoJSON output. *)
Lemma download_states_world (year : Z) (scale : string) (w : world) :
  (download_states fetch read_file year scale w).1 =
  mk_world (stderr_lines w ++ ["Downloading " +:+ census_zip_url year scale +:+ " ..."])
           (requested w ++ [census_zip_url year scale]) (files w).
Proof.
  unfold download_states.
  destruct (fetch _) as [e|resp]; [reflexivity|].
  destruct (raise_for_status resp); [reflexivity|].
  destruct (zip_names resp) as [names|]; [|reflexivity].
  destruct (find _ names); reflexivity.
Qed.

(** A 4xx or 5xx response raises HTTPError; the archive is not opened. *)
Theorem download_states_http_error (year : Z) (scale : string) (w : world) (resp : response) :
  fetch (census_zip_url year scale) = inr resp ->
  (400 <= status_code resp < 600)%Z ->
  (download_states fetch read_file year scale w).2 = inl http_error.
Proof.
  intros Hf Hs. unfold download_states, raise_for_status. cbn zeta. rewrite Hf.
  rewrite (proj2 (Z.leb_le _ _)) by lia. rewrite (proj2 (Z.ltb_lt _ _)) by lia. reflexivity.
Qed.

Lemma find_first {A} (f : A -> bool) (pre post : list A) (x : A) :
  Forall (fun y => f y = false) pre -> f x = true -> find f (pre ++ x :: post) = Some x.
Proof.
  induction pre as [|y pre IH]; intros Hpre Hx; simpl.
  - rewrite Hx. reflexivity.
  - apply Forall_cons in Hpre as [Hy Hpre]. rewrite Hy. exact (IH Hpre Hx).
Qed.

Lemma find_none {A} (f : A -> bool) (l : list A) :
  Forall (fun y => f y = false) l -> find f l = None.
Proof.
  induction l as [|y l IH]; intros Hl; simpl; [reflexivity|].
  apply Forall_cons in Hl as [Hy Hl]. rewrite Hy. exact (IH Hl).
Qed.

(** After a successful request on a zip archive, the member read is the
    first entry of the namelist whose name ends with ".shp". *)
Theorem download_states_first_shp (year : Z) (scale : string) (w : world) (resp : response)
    (pre post : list string) (shp : string) :
  fetch (census_zip_url year scale) = inr resp ->
  raise_for_status resp = None ->
  zip_names resp = Some (pre ++ shp :: post) ->
  Forall (fun n => endswith n ".shp" = false) pre -> endswith shp ".shp" = true ->
  (download_states fetch read_file year scale w).2 = read_file (pre ++ shp :: post) shp.
Proof.
  intros Hf Hr Hz Hpre Hshp. unfold download_states. cbn zeta.
  rewrite Hf, Hr, Hz, (find_first _ pre post shp Hpre Hshp). reflexivity.
Qed.

(** An archive with no entry ending in ".shp" (the test is case
    sensitive) raises StopIteration; nothing is read. *)
Theorem download_states_no_shp (year : Z) (scale : string) (w : world) (resp : response)
    (names : list string) :
  fetch (census_zip_url year scale) = inr resp ->
  raise_for_status resp = None ->
  zip_names resp = Some names ->
  Forall (fun n => endswith n ".shp" = false) names ->
  (download_states fetch read_file year scale w).2 = inl stop_iteration.
Proof.
  intros Hf Hr Hz Hn. unfold download_states. cbn zeta.
  rewrite Hf, Hr, Hz, (find_none _ names Hn). reflexivity.
Qed.

(** A --scale outside the choices stops the program with SystemExit(2)
    before any request is made or any file written. *)
Theorem main_bad_scale (output : string) (year : Z) (scale : string) (w : world) :
  mem_str scale scale_choices = false ->
  let '(w', r) := main proj fetch read_file write_geojson usage_error output year scale w in
  r = inl system_exit_2 /\ requested w' = requested w /\ files w' = files w.
Proof.
  intros Hs. unfold main. rewrite Hs. cbn. repeat split.
Qed.

(** When build_bea_regions raises on the downloaded layer, main raises the
    same exception and writes no GeoJSON output. *)
Theorem main_build_error (output : string) (year : Z) (scale : string) (w w1 : world)
    (states : frame) (e : exc) :
  mem_str scale scale_choices = true ->
  download_states fetch read_file year scale w = (w1, inr states) ->
  build_bea_regions proj states = inl e ->
  main proj fetch read_file write_geojson usage_error output year scale w = (w1, inl e) /\
  files w1 = files w.
Proof.
  intros Hs Hd Hb. split.
  - unfold main. rewrite Hs. cbn [negb]. rewrite Hd, Hb. reflexivity.
  - pose proof (download_states_world year scale w) as Hw. rewrite Hd in Hw. cbn in Hw.
    rewrite Hw. reflexivity.
Qed.

(** A run of main that completes has written exactly the frame
    build_bea_regions made from the downloaded layer to the output path,
    left every other file as it was, and last printed the number of its
    features. *)
Theorem main_success (output : string) (year : Z) (scale : string) (w w' : world) :
  main proj fetch read_file write_geojson usage_error output year scale w = (w', inr tt) ->
  exists w1 states bea,
    download_states fetch read_file year scale w = (w1, inr states) /\
    build_bea_regions proj states = inr bea /\
    files w' = <[output := bea]> (files w) /\
    requested w' = requested w ++ [census_zip_url year scale] /\
    stderr_lines w' = stderr_lines w ++
      ["Downloading " +:+ census_zip_url year scale +:+ " ...";
       "Wrote " +:+ output +:+ " with " +:+ pretty (List.length (rows bea)) +:+ " features."].
Proof.
  unfold main. destruct (mem_str scale scale_choices); cbn [negb];
    [|intros H; discriminate H].
  pose proof (download_states_world year scale w) as Hw.
  destruct (download_states fetch read_file year scale w) as [w1 [e|states]] eqn:Hd;
    [intros H; discriminate H|].
  destruct (build_bea_regions proj states) as [e|bea] eqn:Hb; [intros H; discriminate H|].
  destruct (write_geojson output bea); [intros H; discriminate H|].
  intros H. injection H as <-. cbn in Hw. subst w1.
  exists (mk_world (stderr_lines w ++ ["Downloading " +:+ census_zip_url year scale +:+ " ..."])
                   (requested w ++ [census_zip_url year scale]) (files w)), states, bea.
  repeat split; [exact Hb|]. unfold log. cbn [stderr_lines]. rewrite <- app_assoc. reflexivity.
Qed.


End ProgramProofs.

(** ** Concrete runs of the remaining code *)

Lemma download_states_http_error_witness :
  census_fetch 404 None (census_zip_url 2022 "20m") = inr (mk_response 404 None) /\
  (400 <= status_code (mk_response 404 None) < 600)%Z /\
  (download_states (census_fetch 404 None) (layer_reader sample_states) 2022 "20m" empty_world).2
  = inl http_error.
Proof.
  split; [reflexivity|]. split; [cbn; lia|].
  apply (download_states_http_error (census_fetch 404 None) (layer_reader sample_states)
           2022 "20m" empty_world (mk_response 404 None)); [reflexivity|cbn; lia].
Defined.

Lemma download_states_first_shp_witness :
  Forall (fun n => endswith n ".shp" = false) ["cb_2022_us_state_20m.dbf"] /\
  endswith "cb_2022_us_state_20m.shp" ".shp" = true /\
  (download_states (census_fetch 200 (Some shp_archive)) (fun _ n => inr (mk_frame [n] [] None))
     2022 "20m" empty_world).2 = inr (mk_frame ["cb_2022_us_state_20m.shp"] [] None).
Proof.
  split; [repeat constructor|]. split; [reflexivity|].
  apply (download_states_first_shp (census_fetch 200 (Some shp_archive))
           (fun _ n => inr (mk_frame [n] [] None)) 2022 "20m" empty_world
           (mk_response 200 (Some shp_archive)) ["cb_2022_us_state_20m.dbf"]
           ["cb_2022_us_state_20m.shp.xml"] "cb_2022_us_state_20m.shp");
    [reflexivity|reflexivity|reflexivity|repeat constructor|reflexivity].
Defined.

Lemma download_states_no_shp_witness :
  Forall (fun n => endswith n ".shp" = false) ["CB_2022_US_STATE_20M.SHP"; "cb.dbf"] /\
  (download_states (census_fetch 200 (Some ["CB_2022_US_STATE_20M.SHP"; "cb.dbf"]))
     (layer_reader sample_states) 2022 "20m" empty_world).2 = inl stop_iteration.
Proof.
  split; [repeat constructor|].
  apply (download_states_no_shp (census_fetch 200 (Some ["CB_2022_US_STATE_20M.SHP"; "cb.dbf"]))
           (layer_reader sample_states) 2022 "20m" empty_world
           (mk_response 200 (Some ["CB_2022_US_STATE_20M.SHP"; "cb.dbf"]))
           ["CB_2022_US_STATE_20M.SHP"; "cb.dbf"]); [reflexivity|reflexivity|reflexivity|].
  repeat constructor.
Defined.

Lemma main_bad_scale_witness :
  mem_str "1m" scale_choices = false /\
  let '(w', r) := main shift_proj (census_fetch 200 (Some shp_archive)) (layer_reader sample_states)
                    writer_ok argparse_usage "out.geojson" 2022 "1m" empty_world in
  r = inl system_exit_2 /\ requested w' = requested empty_world /\ files w' = files empty_world.
Proof.
  split; [reflexivity|].
  apply (main_bad_scale shift_proj (census_fetch 200 (Some shp_archive)) (layer_reader sample_states)
           writer_ok argparse_usage "out.geojson" 2022 "1m" empty_world). reflexivity.
Defined.

Lemma main_build_error_witness :
  let d := download_states (census_fetch 200 (Some shp_archive)) (layer_reader unmapped_states)
             2022 "20m" empty_world in
  d = (d.1, inr unmapped_states) /\
  build_bea_regions shift_proj unmapped_states = inl (missing_mapping_error [VStr "ZZ"; VStr "YY"]) /\
  main shift_proj (census_fetch 200 (Some shp_archive)) (layer_reader unmapped_states)
    writer_ok argparse_usage "out.geojson" 2022 "20m" empty_world =
  (d.1, inl (missing_mapping_error [VStr "ZZ"; VStr "YY"])) /\
  files d.1 = files empty_world.
Proof.
  intros d. split; [reflexivity|]. split; [reflexivity|].
  apply (main_build_error shift_proj (census_fetch 200 (Some shp_archive))
           (layer_reader unmapped_states) writer_ok argparse_usage "out.geojson" 2022 "20m"
           empty_world d.1 unmapped_states); reflexivity.
Defined.

Lemma main_success_witness :
  let m := main shift_proj (census_fetch 200 (Some shp_archive)) (layer_reader sample_states)
             writer_ok argparse_usage "out.geojson" 2022 "20m" empty_world in
  m = (m.1, inr tt) /\
  exists w1 states bea,
    download_states (census_fetch 200 (Some shp_archive)) (layer_reader sample_states)
      2022 "20m" empty_world = (w1, inr states) /\
    build_bea_regions shift_proj states = inr bea /\
    files m.1 = <["out.geojson" := bea]> (files empty_world) /\
    requested m.1 = requested empty_world ++ [census_zip_url 2022 "20m"] /\
    stderr_lines m.1 = stderr_lines empty_world ++
      ["Downloading " +:+ census_zip_url 2022 "20m" +:+ " ...";
       "Wrote " +:+ "out.geojson" +:+ " with " +:+ pretty (List.length (rows bea)) +:+ " features."].
Proof.
  intros m. split; [reflexivity|].
  apply (main_success shift_proj (census_fetch 200 (Some shp_archive)) (layer_reader sample_states)
           writer_ok argparse_usage "out.geojson" 2022 "20m" empty_world m.1). reflexivity.
Defined.


Lemma build_regions_sorted_witness :
  build_bea_regions shift_proj sample_states = inr sample_regions /\
  exists ks, map (fun r => get_cell r "bea_region") (rows sample_regions) = map VStr ks /\
             Sorted (fun u v => String.leb u v = true) ks.
Proof.
  split; [reflexivity|].
  apply (build_regions_sorted shift_proj sample_states sample_regions). reflexivity.
Defined.

Lemma build_success_requires_witness :
  build_bea_regions shift_proj sample_states = inr sample_regions /\
  mem_str "STUSPS" (cols sample_states) = true /\
  (forall r, In r (rows sample_states) -> not_territory r = true -> assign_region r <> VNaN) /\
  crs sample_states <> None.
Proof.
  split; [reflexivity|].
  apply (build_success_requires shift_proj sample_states sample_regions). reflexivity.
Defined.

Lemma build_heap_fresh_result_witness :
  match build_bea_regions_heap shift_proj {[0 := sample_states]} 0 with
  | Some (h', inr l) => ({[0 := sample_states]} : gmap nat frame) !! l = None /\ is_Some (h' !! l)
  | _ => False
  end.
Proof.
  destruct (build_bea_regions_heap shift_proj {[0 := sample_states]} 0) as [[h' [e|l]]|] eqn:E.
  - vm_compute in E. discriminate E.
  - exact (build_heap_fresh_result shift_proj {[0 := sample_states]} h' 0 l E).
  - vm_compute in E. discriminate E.
Defined.
